(** * Moving-average crossover trading studies (SMA, EMA, ZLEMA, Hull)

    A shallow embedding of the four study functions
    [scsf_SMA_Crossover_Trading], [scsf_EMA_Crossover_Trading],
    [scsf_ZLEMA_Crossover_Trading] and [scsf_Hull_Crossover_Trading],
    and the properties of their decision logic.

    The studies are written against the charting host's study interface
    ([sierrachart.h]), which is not part of the sources.  Everything the
    studies call on that interface is collected in the class [ACSIL] and
    left abstract; the theorems hold for every host.  A small reference
    host over the rationals ([RefHost]) is used to run the studies on
    concrete inputs. *)

From Stdlib Require Import ZArith QArith Lia List Bool.
From stdpp Require Import base list.
Import ListNotations.

Local Open Scope Z_scope.

(** ** Host enumerations *)

(** Modelled from the spec: the result of [sc.CrossOver], one of
    NoCross, CrossFromBelow, CrossFromAbove; the names are the constants the
    sources compare against ([sierrachart.h] is missing). *)
Inductive CrossResult : Type :=
| CROSS_FROM_TOP
| CROSS_FROM_BOTTOM
| NO_CROSS.

(** The value of [sc.GetBarHasClosedStatus()]. *)
Inductive BarStatus : Type :=
| BHCS_SET_DEFAULTS
| BHCS_BAR_HAS_CLOSED
| BHCS_BAR_HAS_NOT_CLOSED.

Inductive SCOrderType : Type :=
| SCT_ORDERTYPE_MARKET
| SCT_ORDERTYPE_LIMIT
| SCT_ORDERTYPE_STOP
| SCT_ORDERTYPE_TRAILING_STOP.

Inductive SCTimeInForce : Type :=
| SCT_TIF_DAY
| SCT_TIF_GOOD_TILL_CANCELED.

#[global] Instance CrossResult_eq_dec : EqDecision CrossResult.
Proof. solve_decision. Defined.
#[global] Instance BarStatus_eq_dec : EqDecision BarStatus.
Proof. solve_decision. Defined.

(** ** The host interface *)

(** What the studies use of the host, over the host's types of numbers
    ([SCFloat]), base-data arrays, subgraphs and study inputs: the
    arithmetic of the order offsets, the accessors of an input, the
    constant [SC_LAST], the four smoothing functions and the crossover test.

    A smoothing function [f In Out Length Index] is the call
    [sc.f(In, Out, Length)] made while the host evaluates bar [Index]: it
    returns the output subgraph after the call. *)
Class ACSIL (SCFloat SCFloatArray SCSubgraph SCInput : Type) : Type := {
  float_of_int : Z -> SCFloat;
  float_mul : SCFloat -> SCFloat -> SCFloat;
  GetInt : SCInput -> Z;
  GetInputDataIndex : SCInput -> Z;
  SetInt : Z -> SCInput -> SCInput;
  SetInputDataIndex : Z -> SCInput -> SCInput;
  SC_LAST : Z;
  SimpleMovAvg : SCFloatArray -> SCSubgraph -> Z -> nat -> SCSubgraph;
  ExponentialMovAvg : SCFloatArray -> SCSubgraph -> Z -> nat -> SCSubgraph;
  ZeroLagEMA : SCFloatArray -> SCSubgraph -> Z -> nat -> SCSubgraph;
  HullMovingAverage : SCFloatArray -> SCSubgraph -> Z -> nat -> SCSubgraph;
  CrossOver : SCSubgraph -> SCSubgraph -> nat -> CrossResult
}.

Section Studies.
Context {SCFloat SCFloatArray SCSubgraph SCInput : Type}.
Context {H : ACSIL SCFloat SCFloatArray SCSubgraph SCInput}.

Definition MovAvgFn : Type := SCFloatArray -> SCSubgraph -> Z -> nat -> SCSubgraph.

(** ** Orders, positions and requests *)

(** The fields of [s_SCNewOrder] the studies assign. *)
Record s_SCNewOrder : Type := mkNewOrder {
  OrderQuantity : Z;
  OrderType : SCOrderType;
  TimeInForce : SCTimeInForce;
  AttachedOrderTarget1Type : SCOrderType;
  AttachedOrderStop1Type : SCOrderType;
  Target1Offset : SCFloat;
  Stop1Offset : SCFloat
}.

(** Modelled from the spec: the field of [s_SCPositionData] the studies
    read, a signed integer: positive long, negative short, zero flat. *)
Record s_SCPositionData : Type := mkPositionData {
  PositionQuantity : Z
}.

(** A trading request handed to the host. *)
Inductive Request : Type :=
| CancelAllOrders
| FlattenPosition
| BuyEntry (NewOrder : s_SCNewOrder)
| SellEntry (NewOrder : s_SCNewOrder).

Definition is_entry (r : Request) : bool :=
  match r with
  | BuyEntry _ | SellEntry _ => true
  | _ => false
  end.

(** ** The study interface object [sc] *)

(** The study and trading settings written by the defaults block.  The
    presentation fields (graph, input and subgraph names, draw styles and
    colours) are left out. *)
Record StudySettings : Type := mkSettings {
  AutoLoop : Z;
  GraphRegion : Z;
  AllowMultipleEntriesInSameDirection : bool;
  MaximumPositionAllowed : Z;
  SupportReversals : bool;
  SendOrdersToTradeService : bool;
  AllowOppositeEntryWithOpposingPositionOrOrders : bool;
  SupportAttachedOrdersForTrading : bool;
  CancelAllOrdersOnEntriesAndReversals : bool;
  AllowEntryWithWorkingOrders : bool;
  CancelAllWorkingOrdersOnExit : bool;
  AllowOnlyOneTradePerBar : bool;
  MaintainTradeStatisticsAndTradesData : bool
}.

(** The members of [sc] the studies use.  [Index] is the bar the host
    evaluates (never negative); [Orders] is the log of the requests the
    host has received, oldest first; [OrderReply] is the host's answer to a
    request. *)
Record SCStudyInterface : Type := mkSC {
  SetDefaults : bool;
  Index : nat;
  Input : nat -> SCInput;
  BaseDataIn : Z -> SCFloatArray;
  Subgraph : nat -> SCSubgraph;
  TickSize : SCFloat;
  BarHasClosedStatus : BarStatus;
  TradePosition : s_SCPositionData;
  Settings : StudySettings;
  OrderReply : Request -> Z;
  Orders : list Request
}.

Definition override {A : Type} (f : nat -> A) (k : nat) (a : A) : nat -> A :=
  fun j => if Nat.eqb j k then a else f j.

Definition with_Input (k : nat) (i : SCInput) (sc : SCStudyInterface) : SCStudyInterface :=
  mkSC (SetDefaults sc) (Index sc) (override (Input sc) k i) (BaseDataIn sc)
       (Subgraph sc) (TickSize sc) (BarHasClosedStatus sc) (TradePosition sc)
       (Settings sc) (OrderReply sc) (Orders sc).

Definition with_Subgraph (k : nat) (g : SCSubgraph) (sc : SCStudyInterface) : SCStudyInterface :=
  mkSC (SetDefaults sc) (Index sc) (Input sc) (BaseDataIn sc)
       (override (Subgraph sc) k g) (TickSize sc) (BarHasClosedStatus sc)
       (TradePosition sc) (Settings sc) (OrderReply sc) (Orders sc).

Definition with_Settings (s : StudySettings) (sc : SCStudyInterface) : SCStudyInterface :=
  mkSC (SetDefaults sc) (Index sc) (Input sc) (BaseDataIn sc)
       (Subgraph sc) (TickSize sc) (BarHasClosedStatus sc) (TradePosition sc)
       s (OrderReply sc) (Orders sc).

Definition with_Orders (l : list Request) (sc : SCStudyInterface) : SCStudyInterface :=
  mkSC (SetDefaults sc) (Index sc) (Input sc) (BaseDataIn sc)
       (Subgraph sc) (TickSize sc) (BarHasClosedStatus sc) (TradePosition sc)
       (Settings sc) (OrderReply sc) l.

(** ** A state monad over [sc] *)

Definition SCM (A : Type) : Type := SCStudyInterface -> A * SCStudyInterface.

Definition ret {A : Type} (a : A) : SCM A := fun sc => (a, sc).

Definition bind {A B : Type} (m : SCM A) (k : A -> SCM B) : SCM B :=
  fun sc => let (a, sc') := m sc in k a sc'.

Definition gets {A : Type} (f : SCStudyInterface -> A) : SCM A :=
  fun sc => (f sc, sc).

Definition modify (f : SCStudyInterface -> SCStudyInterface) : SCM unit :=
  fun sc => (tt, f sc).

(** [if (c) { m }] with no else branch. *)
Definition when (c : bool) (m : SCM unit) : SCM unit :=
  if c then m else ret tt.

Notation "'let*' x ':=' m 'in' k" := (bind m (fun x => k))
  (at level 10, x name, m at level 100, k at level 200).
Notation "m ';;' k" := (bind m (fun _ => k))
  (at level 100, k at level 200, right associativity).

(** ** The host calls *)

Definition sc_Input (k : nat) : SCM SCInput := gets (fun sc => Input sc k).

Definition sc_BaseDataIn (k : Z) : SCM SCFloatArray := gets (fun sc => BaseDataIn sc k).

Definition sc_TickSize : SCM SCFloat := gets TickSize.

(** [In.SetInt(v)] and [In.SetInputDataIndex(v)] on input [k]. *)
Definition Input_SetInt (k : nat) (v : Z) : SCM unit :=
  modify (fun sc => with_Input k (SetInt v (Input sc k)) sc).

Definition Input_SetInputDataIndex (k : nat) (v : Z) : SCM unit :=
  modify (fun sc => with_Input k (SetInputDataIndex v (Input sc k)) sc).

(** [sc.f(In, sc.Subgraph[Out], Length)] for a smoothing function [f]. *)
Definition sc_MovAvg (f : MovAvgFn) (In : SCFloatArray) (Out : nat) (Length : Z) : SCM unit :=
  modify (fun sc => with_Subgraph Out (f In (Subgraph sc Out) Length (Index sc)) sc).

Definition sc_GetTradePosition : SCM s_SCPositionData := gets TradePosition.

Definition sc_GetBarHasClosedStatus : SCM BarStatus := gets BarHasClosedStatus.

Definition sc_CrossOver (First Second : nat) : SCM CrossResult :=
  gets (fun sc => CrossOver (Subgraph sc First) (Subgraph sc Second) (Index sc)).

(** A trading call appends the request to the host's log and returns the
    host's answer. *)
Definition submit (r : Request) : SCM Z :=
  fun sc => (OrderReply sc r, with_Orders (Orders sc ++ [r]) sc).

Definition sc_CancelAllOrders : SCM Z := submit CancelAllOrders.
Definition sc_FlattenPosition : SCM Z := submit FlattenPosition.
Definition sc_BuyEntry (NewOrder : s_SCNewOrder) : SCM Z := submit (BuyEntry NewOrder).
Definition sc_SellEntry (NewOrder : s_SCNewOrder) : SCM Z := submit (SellEntry NewOrder).

(** The assignments to the [sc] settings in the defaults block, which are
    the same in the four files. *)
Definition default_settings : StudySettings :=
  {| AutoLoop := 1;
     GraphRegion := 0;
     AllowMultipleEntriesInSameDirection := false;
     MaximumPositionAllowed := 1;
     SupportReversals := false;
     SendOrdersToTradeService := false;
     AllowOppositeEntryWithOpposingPositionOrOrders := false;
     SupportAttachedOrdersForTrading := false;
     CancelAllOrdersOnEntriesAndReversals := true;
     AllowEntryWithWorkingOrders := false;
     CancelAllWorkingOrdersOnExit := true;
     AllowOnlyOneTradePerBar := true;
     MaintainTradeStatisticsAndTradesData := true |}.

(** ** The four studies

    Each definition follows its source file statement by statement; the
    local references to inputs and subgraphs are the indices into
    [sc.Input] and [sc.Subgraph].  [Result] receives the host's answer to
    the entry and is not read again. *)

Definition scsf_SMA_Crossover_Trading : SCM unit :=
  let SMA_Fast := 0%nat in
  let SMA_Slow := 1%nat in
  let SMA_Fast_Period := 0%nat in
  let SMA_Slow_Period := 1%nat in
  let SMA_Fast_Data := 2%nat in
  let SMA_Slow_Data := 3%nat in
  let Target_Ticks := 4%nat in
  let Stop_Ticks := 5%nat in
  let* defaults := gets SetDefaults in
  if defaults then
    Input_SetInt SMA_Fast_Period 9 ;;
    Input_SetInt SMA_Slow_Period 9 ;;
    Input_SetInt Stop_Ticks 80 ;;
    Input_SetInt Target_Ticks 80 ;;
    Input_SetInputDataIndex SMA_Fast_Data SC_LAST ;;
    Input_SetInputDataIndex SMA_Slow_Data SC_LAST ;;
    modify (with_Settings default_settings)
  else
    let* fast_data := sc_Input SMA_Fast_Data in
    let* fast_in := sc_BaseDataIn (GetInputDataIndex fast_data) in
    sc_MovAvg SimpleMovAvg fast_in SMA_Fast (GetInt fast_data) ;;
    let* slow_data := sc_Input SMA_Slow_Data in
    let* slow_in := sc_BaseDataIn (GetInputDataIndex slow_data) in
    let* slow_period := sc_Input SMA_Slow_Period in
    sc_MovAvg SimpleMovAvg slow_in SMA_Slow (GetInt slow_period) ;;
    let* target := sc_Input Target_Ticks in
    let* stop := sc_Input Stop_Ticks in
    let* tick := sc_TickSize in
    let NewOrder :=
      {| OrderQuantity := 1;
         OrderType := SCT_ORDERTYPE_MARKET;
         TimeInForce := SCT_TIF_GOOD_TILL_CANCELED;
         AttachedOrderTarget1Type := SCT_ORDERTYPE_LIMIT;
         AttachedOrderStop1Type := SCT_ORDERTYPE_TRAILING_STOP;
         Target1Offset := float_mul (float_of_int (GetInt target)) tick;
         Stop1Offset := float_mul (float_of_int (GetInt stop)) tick |} in
    let* PositionData := sc_GetTradePosition in
    let* status := sc_GetBarHasClosedStatus in
    when (bool_decide (status = BHCS_BAR_HAS_CLOSED))
      (let* cross := sc_CrossOver SMA_Fast SMA_Slow in
       when (bool_decide (cross = CROSS_FROM_BOTTOM))
         (when (PositionQuantity PositionData <? 0)
            (sc_CancelAllOrders ;; sc_FlattenPosition ;; ret tt) ;;
          let* Result := sc_BuyEntry NewOrder in ret tt) ;;
       let* cross := sc_CrossOver SMA_Fast SMA_Slow in
       when (bool_decide (cross = CROSS_FROM_TOP))
         (when (PositionQuantity PositionData >? 0)
            (sc_CancelAllOrders ;; sc_FlattenPosition ;; ret tt) ;;
          let* Result := sc_SellEntry NewOrder in ret tt)).

Definition scsf_EMA_Crossover_Trading : SCM unit :=
  let EMA_Fast := 0%nat in
  let EMA_Slow := 1%nat in
  let EMA_Fast_Period := 0%nat in
  let EMA_Slow_Period := 1%nat in
  let EMA_Fast_Data := 2%nat in
  let EMA_Slow_Data := 3%nat in
  let Target_Ticks := 4%nat in
  let Stop_Ticks := 5%nat in
  let* defaults := gets SetDefaults in
  if defaults then
    Input_SetInt EMA_Fast_Period 9 ;;
    Input_SetInt EMA_Slow_Period 9 ;;
    Input_SetInt Stop_Ticks 80 ;;
    Input_SetInt Target_Ticks 80 ;;
    Input_SetInputDataIndex EMA_Fast_Data SC_LAST ;;
    Input_SetInputDataIndex EMA_Slow_Data SC_LAST ;;
    modify (with_Settings default_settings)
  else
    let* fast_data := sc_Input EMA_Fast_Data in
    let* fast_in := sc_BaseDataIn (GetInputDataIndex fast_data) in
    sc_MovAvg ExponentialMovAvg fast_in EMA_Fast (GetInt fast_data) ;;
    let* slow_data := sc_Input EMA_Slow_Data in
    let* slow_in := sc_BaseDataIn (GetInputDataIndex slow_data) in
    let* slow_period := sc_Input EMA_Slow_Period in
    sc_MovAvg ExponentialMovAvg slow_in EMA_Slow (GetInt slow_period) ;;
    let* target := sc_Input Target_Ticks in
    let* stop := sc_Input Stop_Ticks in
    let* tick := sc_TickSize in
    let NewOrder :=
      {| OrderQuantity := 1;
         OrderType := SCT_ORDERTYPE_MARKET;
         TimeInForce := SCT_TIF_GOOD_TILL_CANCELED;
         AttachedOrderTarget1Type := SCT_ORDERTYPE_LIMIT;
         AttachedOrderStop1Type := SCT_ORDERTYPE_TRAILING_STOP;
         Target1Offset := float_mul (float_of_int (GetInt target)) tick;
         Stop1Offset := float_mul (float_of_int (GetInt stop)) tick |} in
    let* PositionData := sc_GetTradePosition in
    let* status := sc_GetBarHasClosedStatus in
    when (bool_decide (status = BHCS_BAR_HAS_CLOSED))
      (let* cross := sc_CrossOver EMA_Fast EMA_Slow in
       when (bool_decide (cross = CROSS_FROM_BOTTOM))
         (when (PositionQuantity PositionData <? 0)
            (sc_CancelAllOrders ;; sc_FlattenPosition ;; ret tt) ;;
          let* Result := sc_BuyEntry NewOrder in ret tt) ;;
       let* cross := sc_CrossOver EMA_Fast EMA_Slow in
       when (bool_decide (cross = CROSS_FROM_TOP))
         (when (PositionQuantity PositionData >? 0)
            (sc_CancelAllOrders ;; sc_FlattenPosition ;; ret tt) ;;
          let* Result := sc_SellEntry NewOrder in ret tt)).

Definition scsf_ZLEMA_Crossover_Trading : SCM unit :=
  let ZLEMA_Fast := 0%nat in
  let ZLEMA_Slow := 1%nat in
  let ZLEMA_Fast_Period := 0%nat in
  let ZLEMA_Slow_Period := 1%nat in
  let ZLEMA_Fast_Data := 2%nat in
  let ZLEMA_Slow_Data := 3%nat in
  let Target_Ticks := 4%nat in
  let Stop_Ticks := 5%nat in
  let* defaults := gets SetDefaults in
  if defaults then
    Input_SetInt ZLEMA_Fast_Period 9 ;;
    Input_SetInt ZLEMA_Slow_Period 9 ;;
    Input_SetInt Stop_Ticks 80 ;;
    Input_SetInt Target_Ticks 80 ;;
    Input_SetInputDataIndex ZLEMA_Fast_Data SC_LAST ;;
    Input_SetInputDataIndex ZLEMA_Slow_Data SC_LAST ;;
    modify (with_Settings default_settings)
  else
    let* fast_data := sc_Input ZLEMA_Fast_Data in
    let* fast_in := sc_BaseDataIn (GetInputDataIndex fast_data) in
    sc_MovAvg ZeroLagEMA fast_in ZLEMA_Fast (GetInt fast_data) ;;
    let* slow_data := sc_Input ZLEMA_Slow_Data in
    let* slow_in := sc_BaseDataIn (GetInputDataIndex slow_data) in
    let* slow_period := sc_Input ZLEMA_Slow_Period in
    sc_MovAvg ZeroLagEMA slow_in ZLEMA_Slow (GetInt slow_period) ;;
    let* target := sc_Input Target_Ticks in
    let* stop := sc_Input Stop_Ticks in
    let* tick := sc_TickSize in
    let NewOrder :=
      {| OrderQuantity := 1;
         OrderType := SCT_ORDERTYPE_MARKET;
         TimeInForce := SCT_TIF_GOOD_TILL_CANCELED;
         AttachedOrderTarget1Type := SCT_ORDERTYPE_LIMIT;
         AttachedOrderStop1Type := SCT_ORDERTYPE_TRAILING_STOP;
         Target1Offset := float_mul (float_of_int (GetInt target)) tick;
         Stop1Offset := float_mul (float_of_int (GetInt stop)) tick |} in
    let* PositionData := sc_GetTradePosition in
    let* status := sc_GetBarHasClosedStatus in
    when (bool_decide (status = BHCS_BAR_HAS_CLOSED))
      (let* cross := sc_CrossOver ZLEMA_Fast ZLEMA_Slow in
       when (bool_decide (cross = CROSS_FROM_BOTTOM))
         (when (PositionQuantity PositionData <? 0)
            (sc_CancelAllOrders ;; sc_FlattenPosition ;; ret tt) ;;
          let* Result := sc_BuyEntry NewOrder in ret tt) ;;
       let* cross := sc_CrossOver ZLEMA_Fast ZLEMA_Slow in
       when (bool_decide (cross = CROSS_FROM_TOP))
         (when (PositionQuantity PositionData >? 0)
            (sc_CancelAllOrders ;; sc_FlattenPosition ;; ret tt) ;;
          let* Result := sc_SellEntry NewOrder in ret tt)).

Definition scsf_Hull_Crossover_Trading : SCM unit :=
  let Hull_Fast := 0%nat in
  let Hull_Slow := 1%nat in
  let Hull_Fast_Period := 0%nat in
  let Hull_Slow_Period := 1%nat in
  let Hull_Fast_Data := 2%nat in
  let Hull_Slow_Data := 3%nat in
  let Target_Ticks := 4%nat in
  let Stop_Ticks := 5%nat in
  let* defaults := gets SetDefaults in
  if defaults then
    Input_SetInt Hull_Fast_Period 9 ;;
    Input_SetInt Hull_Slow_Period 9 ;;
    Input_SetInt Stop_Ticks 80 ;;
    Input_SetInt Target_Ticks 80 ;;
    Input_SetInputDataIndex Hull_Fast_Data SC_LAST ;;
    Input_SetInputDataIndex Hull_Slow_Data SC_LAST ;;
    modify (with_Settings default_settings)
  else
    let* fast_data := sc_Input Hull_Fast_Data in
    let* fast_in := sc_BaseDataIn (GetInputDataIndex fast_data) in
    sc_MovAvg HullMovingAverage fast_in Hull_Fast (GetInt fast_data) ;;
    let* slow_data := sc_Input Hull_Slow_Data in
    let* slow_in := sc_BaseDataIn (GetInputDataIndex slow_data) in
    let* slow_period := sc_Input Hull_Slow_Period in
    sc_MovAvg HullMovingAverage slow_in Hull_Slow (GetInt slow_period) ;;
    let* target := sc_Input Target_Ticks in
    let* stop := sc_Input Stop_Ticks in
    let* tick := sc_TickSize in
    let NewOrder :=
      {| OrderQuantity := 1;
         OrderType := SCT_ORDERTYPE_MARKET;
         TimeInForce := SCT_TIF_GOOD_TILL_CANCELED;
         AttachedOrderTarget1Type := SCT_ORDERTYPE_LIMIT;
         AttachedOrderStop1Type := SCT_ORDERTYPE_TRAILING_STOP;
         Target1Offset := float_mul (float_of_int (GetInt target)) tick;
         Stop1Offset := float_mul (float_of_int (GetInt stop)) tick |} in
    let* PositionData := sc_GetTradePosition in
    let* status := sc_GetBarHasClosedStatus in
    when (bool_decide (status = BHCS_BAR_HAS_CLOSED))
      (let* cross := sc_CrossOver Hull_Fast Hull_Slow in
       when (bool_decide (cross = CROSS_FROM_BOTTOM))
         (when (PositionQuantity PositionData <? 0)
            (sc_CancelAllOrders ;; sc_FlattenPosition ;; ret tt) ;;
          let* Result := sc_BuyEntry NewOrder in ret tt) ;;
       let* cross := sc_CrossOver Hull_Fast Hull_Slow in
       when (bool_decide (cross = CROSS_FROM_TOP))
         (when (PositionQuantity PositionData >? 0)
            (sc_CancelAllOrders ;; sc_FlattenPosition ;; ret tt) ;;
          let* Result := sc_SellEntry NewOrder in ret tt)).

(** ** The family of studies *)

Inductive Variant : Type := SMA | EMA | ZLEMA | Hull.

Definition scsf (v : Variant) : SCM unit :=
  match v with
  | SMA => scsf_SMA_Crossover_Trading
  | EMA => scsf_EMA_Crossover_Trading
  | ZLEMA => scsf_ZLEMA_Crossover_Trading
  | Hull => scsf_Hull_Crossover_Trading
  end.

(** The host smoothing function a study calls. *)
Definition MovAvg (v : Variant) : MovAvgFn :=
  match v with
  | SMA => SimpleMovAvg
  | EMA => ExponentialMovAvg
  | ZLEMA => ZeroLagEMA
  | Hull => HullMovingAverage
  end.

(** One call of the study function by the host: the state it leaves. *)
Definition run (v : Variant) (sc : SCStudyInterface) : SCStudyInterface :=
  snd (scsf v sc).

(** The requests the call hands to the host: what it appends to the log. *)
Definition emitted (v : Variant) (sc : SCStudyInterface) : list Request :=
  drop (length (Orders sc)) (Orders (run v sc)).

(** The two smoothed series after the call. *)
Definition fast_series (v : Variant) (sc : SCStudyInterface) : SCSubgraph :=
  Subgraph (run v sc) 0.

Definition slow_series (v : Variant) (sc : SCStudyInterface) : SCSubgraph :=
  Subgraph (run v sc) 1.

(** The crossover classification of the two series at the evaluated bar. *)
Definition crossover (v : Variant) (sc : SCStudyInterface) : CrossResult :=
  CrossOver (fast_series v sc) (slow_series v sc) (Index sc).

(** ** The core of the spec

    The spec describes one core, parameterised by a smoothing function,
    made of the order builder, the transition table and the bar-close
    gate.  These definitions follow the spec's words; [run_spec] below
    relates the four source functions to them. *)

(** The order intent builder: the order for a stop and a target distance
    in ticks and a tick size. *)
Definition OrderIntent (stopTicks targetTicks : Z) (tickSize : SCFloat) : s_SCNewOrder :=
  {| OrderQuantity := 1;
     OrderType := SCT_ORDERTYPE_MARKET;
     TimeInForce := SCT_TIF_GOOD_TILL_CANCELED;
     AttachedOrderTarget1Type := SCT_ORDERTYPE_LIMIT;
     AttachedOrderStop1Type := SCT_ORDERTYPE_TRAILING_STOP;
     Target1Offset := float_mul (float_of_int targetTicks) tickSize;
     Stop1Offset := float_mul (float_of_int stopTicks) tickSize |}.

(** The configured distances: input 5 holds the stop ticks, input 4 the
    target ticks. *)
Definition build (sc : SCStudyInterface) : s_SCNewOrder :=
  OrderIntent (GetInt (Input sc 5)) (GetInt (Input sc 4)) (TickSize sc).

(** The transition table of the decision engine. *)
Definition transition_table (cross : CrossResult) (quantity : Z) (o : s_SCNewOrder)
  : list Request :=
  match cross with
  | CROSS_FROM_BOTTOM =>
      if quantity <? 0 then [CancelAllOrders; FlattenPosition; BuyEntry o]
      else [BuyEntry o]
  | CROSS_FROM_TOP =>
      if quantity >? 0 then [CancelAllOrders; FlattenPosition; SellEntry o]
      else [SellEntry o]
  | NO_CROSS => []
  end.

(** The table is consulted only for a bar that has closed. *)
Definition decide_bar (status : BarStatus) (cross : CrossResult) (quantity : Z)
    (o : s_SCNewOrder) : list Request :=
  match status with
  | BHCS_BAR_HAS_CLOSED => transition_table cross quantity o
  | _ => []
  end.

(** The state after the two smoothing calls of a study: the fast series
    from input 2 alone, the slow series from inputs 3 and 1. *)
Definition smoothed (f : MovAvgFn) (sc : SCStudyInterface) : SCStudyInterface :=
  with_Subgraph 1
    (f (BaseDataIn sc (GetInputDataIndex (Input sc 3))) (Subgraph sc 1)
       (GetInt (Input sc 1)) (Index sc))
    (with_Subgraph 0
       (f (BaseDataIn sc (GetInputDataIndex (Input sc 2))) (Subgraph sc 0)
          (GetInt (Input sc 2)) (Index sc))
       sc).

End Studies.

(** ** The crossover rule of the spec *)

Section Classify.
Context {V : Type} (leb ltb : V -> V -> bool).

(** Modelled from the spec: the rule of the crossover detector, whose code
    ([sc.CrossOver]) is in the host.  CrossFromBelow iff
    [fastPrev <= slowPrev && fastCur > slowCur]; CrossFromAbove iff
    [fastPrev >= slowPrev && fastCur < slowCur]; otherwise NoCross.
    [leb] and [ltb] are the comparisons [<=] and [<] of the number type;
    [a > b] is [ltb b a] and [a >= b] is [leb b a]. *)
Definition classify (fastPrev slowPrev fastCur slowCur : V) : CrossResult :=
  if leb fastPrev slowPrev && ltb slowCur fastCur then CROSS_FROM_BOTTOM
  else if leb slowPrev fastPrev && ltb fastCur slowCur then CROSS_FROM_TOP
  else NO_CROSS.

End Classify.

(** ** A reference host over the rationals *)

Module RefHost.

Local Open Scope Q_scope.

(** A study input holds one value: an integer written by [SetInt] or the
    index of a base-data array written by [SetInputDataIndex]; both getters
    read the stored number. *)
Inductive InputValue : Type :=
| INT_VALUE (v : Z)
| OHLC_VALUE (index : Z).

Definition stored (i : InputValue) : Z :=
  match i with
  | INT_VALUE v => v
  | OHLC_VALUE index => index
  end.

(** Reading an array outside its bounds gives zero. *)
Definition elem (a : list Q) (i : nat) : Q := nth i a 0.

Definition Qsum (l : list Q) : Q := fold_right Qplus 0 l.

Definition period_of (Length : Z) : nat := Z.to_nat Length.

(** The last [n] samples up to and including index [i], fewer when fewer
    exist. *)
Definition window (a : list Q) (i n : nat) : list Q :=
  drop (S i - n) (take (S i) a).

Definition smoothing_constant (Length : Z) : Q := 2 / (inject_Z Length + 1).

(** Modelled from the spec: Simple, the arithmetic mean of the last
    [period] samples, or of what exists. *)
Definition simple (In Out : list Q) (Length : Z) (Index : nat) : list Q :=
  let w := window In Index (period_of Length) in
  <[Index := Qred (Qsum w / inject_Z (Z.of_nat (length w)))]> Out.

(** Modelled from the spec: Exponential,
    [value[i] = a * sample[i] + (1 - a) * value[i-1]] with
    [a = 2 / (period + 1)], seeded with [value[0] = sample[0]]. *)
Definition exp_step (Length : Z) (x : Q) (Out : list Q) (Index : nat) : Q :=
  match Index with
  | O => Qred x
  | S j =>
      let a := smoothing_constant Length in
      Qred (a * x + (1 - a) * elem Out j)
  end.

Definition exponential (In Out : list Q) (Length : Z) (Index : nat) : list Q :=
  <[Index := exp_step Length (elem In Index) Out Index]> Out.

(** Modelled from the spec: Zero-lag exponential, the exponential smoothing
    of [sample[i] + (sample[i] - sample[i - lag])], [lag = (period - 1) / 2],
    and of [sample[i]] itself where [i < lag]. *)
Definition zero_lag (In Out : list Q) (Length : Z) (Index : nat) : list Q :=
  let lag := Z.to_nat ((Length - 1) / 2) in
  let x := if (Index <? lag)%nat then elem In Index
           else elem In Index + (elem In Index - elem In (Index - lag)) in
  <[Index := exp_step Length x Out Index]> Out.

(** The linearly weighted average of the last [n] values of [f] up to
    index [i]: weight [n] on [f i], [n - 1] on [f (i - 1)], and so on. *)
Fixpoint wma_sums (f : nat -> Q) (i n : nat) : Q * Q :=
  match n with
  | O => (0, 0)
  | S m =>
      let w := inject_Z (Z.of_nat n) in
      match i with
      | O => (w * f O, w)
      | S j => let '(s, t) := wma_sums f j m in (w * f i + s, w + t)
      end
  end.

Definition WMA (f : nat -> Q) (n : nat) (i : nat) : Q :=
  let '(s, t) := wma_sums f i n in Qred (s / t).

(** The nearest integer to the square root, at least 1. *)
Definition round_sqrt (p : Z) : Z :=
  let r := Z.sqrt p in
  Z.max 1 (if (r <? p - r * r)%Z then r + 1 else r).

(** Modelled from the spec: Hull,
    [WMA(2 * WMA(sample, period/2) - WMA(sample, period), sqrt(period))]
    with every period rounded to the nearest integer, at least 1. *)
Definition hull (In Out : list Q) (Length : Z) (Index : nat) : list Q :=
  let full := Z.to_nat (Z.max 1 Length) in
  let half := Z.to_nat (Z.max 1 ((Length + 1) / 2)) in
  let root := Z.to_nat (round_sqrt Length) in
  let diff := fun j => 2 * WMA (elem In) half j - WMA (elem In) full j in
  <[Index := WMA diff root Index]> Out.

Definition Qltb (a b : Q) : bool := negb (Qle_bool b a).

(** The crossover rule applied at [Index - 1] and [Index]; no crossover on
    the first bar. *)
Definition cross_over (First Second : list Q) (Index : nat) : CrossResult :=
  match Index with
  | O => NO_CROSS
  | S j =>
      classify Qle_bool Qltb (elem First j) (elem Second j)
               (elem First Index) (elem Second Index)
  end.

Definition host : ACSIL Q (list Q) (list Q) InputValue :=
  {| float_of_int := inject_Z;
     float_mul := fun a b => Qred (a * b);
     GetInt := stored;
     GetInputDataIndex := stored;
     SetInt := fun v _ => INT_VALUE v;
     SetInputDataIndex := fun v _ => OHLC_VALUE v;
     SC_LAST := 3;
     SimpleMovAvg := simple;
     ExponentialMovAvg := exponential;
     ZeroLagEMA := zero_lag;
     HullMovingAverage := hull;
     CrossOver := cross_over |}.

(** The study interface object of this host. *)
Abbreviation RefSC := (@SCStudyInterface Q (list Q) (list Q) InputValue).

End RefHost.

(** ** Concrete evaluations on the reference host *)

Module Scenario.
Import RefHost.
Local Open Scope Q_scope.
#[local] Existing Instance host.

Definition no_settings : StudySettings :=
  mkSettings 0 0 false 0 false false false false false false false false false.

(** The study instance before the host's defaults call. *)
Definition blank : RefSC :=
  mkSC true 0 (fun _ => INT_VALUE 0) (fun _ => []) (fun _ => [])
       (1 # 4) BHCS_SET_DEFAULTS (mkPositionData 0) no_settings
       (fun _ => 1%Z) [].

(** The instance after the defaults call: both periods 9, both data
    inputs [SC_LAST], stop and target 80 ticks. *)
Definition configured : RefSC := run SMA blank.

(** An evaluation of bar [i] with the default configuration: [last] is the
    [SC_LAST] array, [fast] and [slow] the two subgraphs as earlier calls
    left them. *)
Definition evaluation (last fast slow : list Q) (i : nat) (status : BarStatus)
    (quantity : Z) (log : list (@Request Q)) (reply : @Request Q -> Z)
  : RefSC :=
  mkSC false i (Input configured)
       (fun k => if (k =? 3)%Z then last else [])
       (fun k => match k with O => fast | 1%nat => slow | _ => [] end)
       (1 # 4) status (mkPositionData quantity) (Settings configured)
       reply log.

Definition accept : @Request Q -> Z := fun _ => 1%Z.
Definition reject : @Request Q -> Z := fun _ => 0%Z.

(** Ten rising bars, evaluated at the last one. *)
Definition rising : RefSC :=
  evaluation [1; 2; 3; 4; 5; 6; 7; 8; 9; 10] (repeat 0 10) (repeat 0 10) 9
             BHCS_BAR_HAS_CLOSED 0 [] accept.

(** A short position when the fast series crosses above the slow one. *)
Definition up_prices : list Q := [4; 4; 4; 4; 1; 1; 1; 10].
Definition up_fast : list Q := [4; 4; 4; 4; 3; 2; 1; 0].
Definition up_slow : list Q := [4; 4; 4; 4; 17 # 5; 3; 19 # 7; 0].

Definition short_cross_up : RefSC :=
  evaluation up_prices up_fast up_slow 7 BHCS_BAR_HAS_CLOSED (-1) [] accept.

Definition flat_cross_up : RefSC :=
  evaluation up_prices up_fast up_slow 7 BHCS_BAR_HAS_CLOSED 0 [] accept.

(** The same bar seen before it has closed. *)
Definition short_cross_up_open : RefSC :=
  evaluation up_prices up_fast up_slow 7 BHCS_BAR_HAS_NOT_CLOSED (-1) [] accept.

(** The same bar on a host with an older log and other answers. *)
Definition short_cross_up_later : RefSC :=
  evaluation up_prices up_fast up_slow 7 BHCS_BAR_HAS_CLOSED (-1)
             [FlattenPosition; CancelAllOrders] reject.

(** A long position when the fast series crosses below the slow one; the
    earlier values are chosen so that the simple and the exponential
    averages of this bar are equal. *)
Definition down_prices : list Q := [5; 5; 5; 5; 5; 6; 6; 0].
Definition down_fast : list Q := [5; 5; 5; 5; 5; 6; 8; 0].
Definition down_slow : list Q := [5; 5; 5; 5; 5; 5; 185 # 32; 0].

Definition long_cross_down : RefSC :=
  evaluation down_prices down_fast down_slow 7 BHCS_BAR_HAS_CLOSED 1 [] accept.

(** A constant price: the series never cross. *)
Definition level : RefSC :=
  evaluation (repeat 100 8) (repeat 100 8) (repeat 100 8) 7
             BHCS_BAR_HAS_CLOSED 1 [] accept.

(** The constant price with the slow period set to 3, the length the fast
    call reads from its data input. *)
Definition level_alike : RefSC := with_Input 1 (INT_VALUE 3) level.

(** The order of the default configuration at a tick size of 1/4. *)
Definition default_order : @s_SCNewOrder Q :=
  OrderIntent 80 80 (1 # 4).

End Scenario.

(** * Properties *)

Ltac unfold_study :=
  unfold scsf, scsf_SMA_Crossover_Trading, scsf_EMA_Crossover_Trading,
    scsf_ZLEMA_Crossover_Trading, scsf_Hull_Crossover_Trading,
    bind, gets, sc_Input, sc_BaseDataIn, sc_MovAvg, sc_TickSize,
    sc_GetTradePosition, sc_GetBarHasClosedStatus, sc_CrossOver,
    sc_CancelAllOrders, sc_FlattenPosition, sc_BuyEntry, sc_SellEntry,
    submit, modify, ret, when.

Ltac step_study :=
  cbn -[Z.ltb Z.gtb];
  repeat (match goal with
          | |- context [bool_decide (?a = ?b)] =>
              first [ rewrite (bool_decide_eq_true_2 (a = b)) by reflexivity
                    | rewrite (bool_decide_eq_false_2 (a = b)) by discriminate ]
          end;
          cbn -[Z.ltb Z.gtb]).

Section Properties.
Context {SCFloat SCFloatArray SCSubgraph SCInput : Type}.
Context {H : ACSIL SCFloat SCFloatArray SCSubgraph SCInput}.

(** ** Helper lemmas *)

Lemma run_spec (v : Variant) (sc : SCStudyInterface) :
  SetDefaults sc = false ->
  run v sc =
    with_Orders
      (Orders sc ++
       decide_bar (BarHasClosedStatus sc)
         (CrossOver (Subgraph (smoothed (MovAvg v) sc) 0)
                    (Subgraph (smoothed (MovAvg v) sc) 1) (Index sc))
         (PositionQuantity (TradePosition sc)) (build sc))
      (smoothed (MovAvg v) sc).
Proof.
  intros Hd. unfold run.
  destruct v; unfold_study; cbn -[Z.ltb Z.gtb]; rewrite Hd; cbn -[Z.ltb Z.gtb].
  all: destruct (BarHasClosedStatus sc); step_study;
    try (rewrite app_nil_r; reflexivity).
  all: match goal with
       | |- context [transition_table ?c _ _] => destruct c eqn:Hc
       end.
  all: repeat (step_study;
               first [ rewrite Hc
                     | match goal with
                       | |- context [Z.ltb ?a ?b] => destruct (Z.ltb a b)
                       | |- context [Z.gtb ?a ?b] => destruct (Z.gtb a b)
                       end ]).
  all: step_study; unfold with_Orders; cbn;
    rewrite <- ?app_assoc, ?app_nil_r; reflexivity.
Qed.

Lemma run_defaults (v : Variant) (sc : SCStudyInterface) :
  SetDefaults sc = true ->
  Orders (run v sc) = Orders sc /\ Subgraph (run v sc) = Subgraph sc.
Proof.
  intros Hd. unfold run.
  destruct v; unfold_study; cbn; rewrite Hd; cbn; split; reflexivity.
Qed.

Lemma series_spec (v : Variant) (sc : SCStudyInterface) :
  SetDefaults sc = false ->
  fast_series v sc =
    MovAvg v (BaseDataIn sc (GetInputDataIndex (Input sc 2))) (Subgraph sc 0)
           (GetInt (Input sc 2)) (Index sc) /\
  slow_series v sc =
    MovAvg v (BaseDataIn sc (GetInputDataIndex (Input sc 3))) (Subgraph sc 1)
           (GetInt (Input sc 1)) (Index sc).
Proof.
  intros Hd. unfold fast_series, slow_series.
  rewrite (run_spec v sc Hd). split; reflexivity.
Qed.

(** What a call emits, in terms of the spec's gate and table. *)
Lemma emitted_eq (v : Variant) (sc : SCStudyInterface) :
  emitted v sc =
    if SetDefaults sc then []
    else decide_bar (BarHasClosedStatus sc) (crossover v sc)
           (PositionQuantity (TradePosition sc)) (build sc).
Proof.
  unfold emitted, crossover, fast_series, slow_series.
  destruct (SetDefaults sc) eqn:Hd.
  - destruct (run_defaults v sc Hd) as [-> _]. apply drop_all.
  - rewrite (run_spec v sc Hd). cbn [Orders with_Orders Subgraph Index].
    apply drop_app_length.
Qed.

(** A call only appends to the host's log. *)
Lemma run_log (v : Variant) (sc : SCStudyInterface) :
  Orders (run v sc) = Orders sc ++ emitted v sc.
Proof.
  unfold emitted. destruct (SetDefaults sc) eqn:Hd.
  - destruct (run_defaults v sc Hd) as [-> _].
    rewrite drop_all. symmetry. apply app_nil_r.
  - rewrite (run_spec v sc Hd). cbn [Orders with_Orders].
    rewrite drop_app_length. reflexivity.
Qed.

Lemma decide_bar_cases (status : BarStatus) (cross : CrossResult) (q : Z)
    (o : @s_SCNewOrder SCFloat) :
  decide_bar status cross q o = [] \/
  decide_bar status cross q o = [BuyEntry o] \/
  decide_bar status cross q o = [CancelAllOrders; FlattenPosition; BuyEntry o] \/
  decide_bar status cross q o = [SellEntry o] \/
  decide_bar status cross q o = [CancelAllOrders; FlattenPosition; SellEntry o].
Proof.
  destruct status, cross; cbn; auto.
  - destruct (q >? 0); auto.
  - destruct (q <? 0); auto.
Qed.

(** Every entry a call emits carries the order built from the inputs. *)
Lemma emitted_entry (v : Variant) (sc : SCStudyInterface) (o : s_SCNewOrder) :
  In (BuyEntry o) (emitted v sc) \/ In (SellEntry o) (emitted v sc) ->
  o = build sc.
Proof.
  rewrite emitted_eq. destruct (SetDefaults sc); [cbn; tauto|].
  destruct (decide_bar_cases (BarHasClosedStatus sc) (crossover v sc)
              (PositionQuantity (TradePosition sc)) (build sc))
    as [-> | [-> | [-> | [-> | ->]]]]; cbn; intuition congruence.
Qed.

(** ** The smoothing calls *)

(** C1, as the code has it: in an evaluation the fast series is the
    smoothing of the array selected by input 2 with the length read from
    input 2 as well, the slow series the smoothing of the array selected by
    input 3 with the length of input 1; the fast period, input 0, is not
    read, and replacing it leaves the fast series as it is. *)
Theorem fast_length_read_from_data_input (v : Variant) (sc : SCStudyInterface) :
  SetDefaults sc = false ->
  fast_series v sc =
    MovAvg v (BaseDataIn sc (GetInputDataIndex (Input sc 2))) (Subgraph sc 0)
           (GetInt (Input sc 2)) (Index sc) /\
  slow_series v sc =
    MovAvg v (BaseDataIn sc (GetInputDataIndex (Input sc 3))) (Subgraph sc 1)
           (GetInt (Input sc 1)) (Index sc) /\
  forall period : SCInput,
    fast_series v (with_Input 0 period sc) = fast_series v sc.
Proof.
  intros Hd. destruct (series_spec v sc Hd) as [Hf Hs].
  split; [exact Hf|]. split; [exact Hs|].
  intros period. rewrite Hf.
  destruct (series_spec v (with_Input 0 period sc) Hd) as [-> _].
  reflexivity.
Qed.

(** ** The decision *)

(** C2: at a closed bar, a crossing from below with a short position emits
    exactly cancel, flatten, buy entry, in this order; a crossing from above
    with a long position emits exactly cancel, flatten, sell entry. *)
Theorem opposing_position_sequence (v : Variant) (sc : SCStudyInterface) :
  SetDefaults sc = false ->
  BarHasClosedStatus sc = BHCS_BAR_HAS_CLOSED ->
  (crossover v sc = CROSS_FROM_BOTTOM ->
   PositionQuantity (TradePosition sc) < 0 ->
   emitted v sc = [CancelAllOrders; FlattenPosition; BuyEntry (build sc)]) /\
  (crossover v sc = CROSS_FROM_TOP ->
   PositionQuantity (TradePosition sc) > 0 ->
   emitted v sc = [CancelAllOrders; FlattenPosition; SellEntry (build sc)]).
Proof.
  intros Hd Hc. rewrite emitted_eq, Hd, Hc. cbn [decide_bar].
  split; intros -> Hq; cbn [transition_table].
  - apply Z.ltb_lt in Hq. rewrite Hq. reflexivity.
  - apply Z.gtb_gt in Hq. rewrite Hq. reflexivity.
Qed.

(** C3: at a closed bar, cancel and flatten are issued on a crossing from
    below exactly when the position is short and on a crossing from above
    exactly when it is long; otherwise the entry is the only request; and
    a flatten is followed by a buy only if the position was short, by a
    sell only if it was long. *)
Theorem flatten_iff_opposing (v : Variant) (sc : SCStudyInterface) :
  SetDefaults sc = false ->
  BarHasClosedStatus sc = BHCS_BAR_HAS_CLOSED ->
  (crossover v sc = CROSS_FROM_BOTTOM ->
   (In CancelAllOrders (emitted v sc) <-> PositionQuantity (TradePosition sc) < 0) /\
   (In FlattenPosition (emitted v sc) <-> PositionQuantity (TradePosition sc) < 0) /\
   (0 <= PositionQuantity (TradePosition sc) ->
    emitted v sc = [BuyEntry (build sc)])) /\
  (crossover v sc = CROSS_FROM_TOP ->
   (In CancelAllOrders (emitted v sc) <-> PositionQuantity (TradePosition sc) > 0) /\
   (In FlattenPosition (emitted v sc) <-> PositionQuantity (TradePosition sc) > 0) /\
   (PositionQuantity (TradePosition sc) <= 0 ->
    emitted v sc = [SellEntry (build sc)])) /\
  (forall (before after : list Request) (o : s_SCNewOrder),
     emitted v sc = before ++ FlattenPosition :: after ->
     (In (BuyEntry o) after -> PositionQuantity (TradePosition sc) < 0) /\
     (In (SellEntry o) after -> PositionQuantity (TradePosition sc) > 0)).
Proof.
  intros Hd Hc. rewrite emitted_eq, Hd, Hc. cbn [decide_bar].
  split; [|split].
  - intros ->. cbn [transition_table].
    destruct (Z.ltb_spec (PositionQuantity (TradePosition sc)) 0) as [Hq|Hq];
      cbn; repeat split; intros; try lia; try reflexivity; intuition congruence.
  - intros ->. cbn [transition_table].
    destruct (Z.gtb_spec (PositionQuantity (TradePosition sc)) 0) as [Hq|Hq];
      cbn; repeat split; intros; try lia; try reflexivity; intuition congruence.
  - intros before after o Heq.
    destruct (crossover v sc); cbn [transition_table] in Heq.
    + destruct (Z.gtb_spec (PositionQuantity (TradePosition sc)) 0) as [Hq|Hq].
      * destruct before as [|? [|? [|? [|? ?]]]]; cbn in Heq; simplify_eq;
          cbn; split; intros; try lia; intuition congruence.
      * destruct before as [|? [|? ?]]; cbn in Heq; simplify_eq.
    + destruct (Z.ltb_spec (PositionQuantity (TradePosition sc)) 0) as [Hq|Hq].
      * destruct before as [|? [|? [|? [|? ?]]]]; cbn in Heq; simplify_eq;
          cbn; split; intros; try lia; intuition congruence.
      * destruct before as [|? [|? ?]]; cbn in Heq; simplify_eq.
    + destruct before; cbn in Heq; simplify_eq.
Qed.

(** C4: when the classification is NoCross nothing is emitted and the
    host's log is left as it was, whatever the position. *)
Theorem no_cross_no_request (v : Variant) (sc : SCStudyInterface) :
  crossover v sc = NO_CROSS ->
  emitted v sc = [] /\ Orders (run v sc) = Orders sc.
Proof.
  intros Hx.
  assert (He : emitted v sc = []).
  { rewrite emitted_eq, Hx. destruct (SetDefaults sc); [reflexivity|].
    destruct (BarHasClosedStatus sc); reflexivity. }
  split; [exact He|].
  rewrite run_log, He. apply app_nil_r.
Qed.

(** C5: a call for a bar that has not closed emits nothing, and a call
    emits at most one entry. *)
Theorem only_at_close_one_entry (v : Variant) (sc : SCStudyInterface) :
  (BarHasClosedStatus sc <> BHCS_BAR_HAS_CLOSED -> emitted v sc = []) /\
  (length (List.filter is_entry (emitted v sc)) <= 1)%nat.
Proof.
  rewrite emitted_eq. split.
  - intros Hs. destruct (SetDefaults sc); [reflexivity|].
    destruct (BarHasClosedStatus sc); cbn; congruence.
  - destruct (SetDefaults sc); [cbn; lia|].
    destruct (decide_bar_cases (BarHasClosedStatus sc) (crossover v sc)
                (PositionQuantity (TradePosition sc)) (build sc))
      as [-> | [-> | [-> | [-> | ->]]]]; cbn; lia.
Qed.

(** ** The orders *)

(** C6: every entry a call emits carries quantity 1, a market order, good
    till cancelled, the stop offset [stop ticks * tick size] and the target
    offset [target ticks * tick size]; the order is [OrderIntent] of the two
    tick inputs and the tick size, so any two entries built under the same
    three values are the same order, whatever the study, the bars, the
    position and the direction. *)
Theorem entry_order_fields (v : Variant) (sc : SCStudyInterface) (o : s_SCNewOrder) :
  In (BuyEntry o) (emitted v sc) \/ In (SellEntry o) (emitted v sc) ->
  OrderQuantity o = 1 /\
  OrderType o = SCT_ORDERTYPE_MARKET /\
  TimeInForce o = SCT_TIF_GOOD_TILL_CANCELED /\
  Stop1Offset o = float_mul (float_of_int (GetInt (Input sc 5))) (TickSize sc) /\
  Target1Offset o = float_mul (float_of_int (GetInt (Input sc 4))) (TickSize sc) /\
  o = OrderIntent (GetInt (Input sc 5)) (GetInt (Input sc 4)) (TickSize sc) /\
  (forall (v' : Variant) (sc' : SCStudyInterface) (o' : s_SCNewOrder),
     GetInt (Input sc' 5) = GetInt (Input sc 5) ->
     GetInt (Input sc' 4) = GetInt (Input sc 4) ->
     TickSize sc' = TickSize sc ->
     In (BuyEntry o') (emitted v' sc') \/ In (SellEntry o') (emitted v' sc') ->
     o' = o).
Proof.
  intros Ho. apply emitted_entry in Ho. subst o.
  repeat split.
  intros v' sc' o' H5 H4 Ht Ho'. apply emitted_entry in Ho'. subst o'.
  unfold build. rewrite H5, H4, Ht. reflexivity.
Qed.

(** C9: every entry a call emits has a limit order as attached target and
    a trailing stop as attached stop. *)
Theorem attached_order_types (v : Variant) (sc : SCStudyInterface) (o : s_SCNewOrder) :
  In (BuyEntry o) (emitted v sc) \/ In (SellEntry o) (emitted v sc) ->
  AttachedOrderTarget1Type o = SCT_ORDERTYPE_LIMIT /\
  AttachedOrderStop1Type o = SCT_ORDERTYPE_TRAILING_STOP.
Proof.
  intros Ho. apply emitted_entry in Ho. subst o. split; reflexivity.
Qed.

(** ** The studies compared *)

(** C8: on the same [sc], two studies whose fast series coincide and whose
    slow series coincide emit the same requests. *)
Theorem variants_agree (v1 v2 : Variant) (sc : SCStudyInterface) :
  fast_series v1 sc = fast_series v2 sc ->
  slow_series v1 sc = slow_series v2 sc ->
  emitted v1 sc = emitted v2 sc.
Proof.
  intros Hf Hs. rewrite !emitted_eq. unfold crossover.
  rewrite Hf, Hs. reflexivity.
Qed.

(** C10: two calls of a study that agree on the call mode, the bar index,
    the inputs, the base data, the two subgraphs, the tick size, the
    bar-closed status and the position quantity emit the same requests and
    leave the same two series; the log, the host's answers and the settings
    may differ. *)
Theorem evaluation_deterministic (v : Variant) (sc1 sc2 : SCStudyInterface) :
  SetDefaults sc1 = SetDefaults sc2 ->
  Index sc1 = Index sc2 ->
  (forall k, Input sc1 k = Input sc2 k) ->
  (forall k, BaseDataIn sc1 k = BaseDataIn sc2 k) ->
  Subgraph sc1 0 = Subgraph sc2 0 ->
  Subgraph sc1 1 = Subgraph sc2 1 ->
  TickSize sc1 = TickSize sc2 ->
  BarHasClosedStatus sc1 = BarHasClosedStatus sc2 ->
  PositionQuantity (TradePosition sc1) = PositionQuantity (TradePosition sc2) ->
  emitted v sc1 = emitted v sc2 /\
  fast_series v sc1 = fast_series v sc2 /\
  slow_series v sc1 = slow_series v sc2.
Proof.
  intros Hd Hi Hin Hb H0 H1 Ht Hs Hq.
  assert (Hser : fast_series v sc1 = fast_series v sc2 /\
                 slow_series v sc1 = slow_series v sc2).
  { destruct (SetDefaults sc2) eqn:Hd2.
    - unfold fast_series, slow_series.
      destruct (run_defaults v sc1 Hd) as [_ ->].
      destruct (run_defaults v sc2 Hd2) as [_ ->]. auto.
    - destruct (series_spec v sc1 Hd) as [-> ->].
      destruct (series_spec v sc2 Hd2) as [-> ->].
      rewrite !Hin, !Hb, H0, H1, Hi. auto. }
  split; [|exact Hser]. destruct Hser as [Hf Hl].
  rewrite !emitted_eq. unfold crossover, build.
  rewrite Hd, Hs, Hq, Hf, Hl, Hi, !Hin, Ht. reflexivity.
Qed.

End Properties.

(** ** The crossover rule *)

Section ClassifyFacts.
Context {V : Type} (leb ltb : V -> V -> bool).
Hypothesis ltb_asym : forall a b : V, ltb a b = true -> ltb b a = false.

(** C7: the classification is CrossFromBelow iff [fastPrev <= slowPrev] and
    [fastCur > slowCur], CrossFromAbove iff [fastPrev >= slowPrev] and
    [fastCur < slowCur], and NoCross iff neither holds; with fast equal to
    slow at both indices it is NoCross. *)
Theorem classify_rule (fastPrev slowPrev fastCur slowCur : V) :
  (classify leb ltb fastPrev slowPrev fastCur slowCur = CROSS_FROM_BOTTOM <->
   leb fastPrev slowPrev = true /\ ltb slowCur fastCur = true) /\
  (classify leb ltb fastPrev slowPrev fastCur slowCur = CROSS_FROM_TOP <->
   leb slowPrev fastPrev = true /\ ltb fastCur slowCur = true) /\
  (classify leb ltb fastPrev slowPrev fastCur slowCur = NO_CROSS <->
   ~ (leb fastPrev slowPrev = true /\ ltb slowCur fastCur = true) /\
   ~ (leb slowPrev fastPrev = true /\ ltb fastCur slowCur = true)) /\
  classify leb ltb fastPrev fastPrev fastCur fastCur = NO_CROSS.
Proof.
  unfold classify.
  assert (Hirr : ltb fastCur fastCur = false).
  { destruct (ltb fastCur fastCur) eqn:E; [|reflexivity].
    rewrite <- E at 1. apply ltb_asym, E. }
  rewrite Hirr, !andb_false_r.
  pose proof (ltb_asym slowCur fastCur) as A1.
  pose proof (ltb_asym fastCur slowCur) as A2.
  destruct (leb fastPrev slowPrev), (leb slowPrev fastPrev),
    (ltb slowCur fastCur), (ltb fastCur slowCur); cbn;
    repeat split; try tauto; try congruence; intuition congruence.
Qed.

End ClassifyFacts.

(** * The theorems on concrete evaluations *)

Section Evaluations.
Import RefHost Scenario.
Local Open Scope Q_scope.
#[local] Existing Instance host.

Lemma Qltb_asym (a b : Q) : Qltb a b = true -> Qltb b a = false.
Proof.
  unfold Qltb. intros Hab.
  apply negb_true_iff in Hab. apply negb_false_iff.
  apply Qle_bool_iff. apply Qlt_le_weak. apply Qnot_le_lt.
  intros Hle. apply Qle_bool_iff in Hle. congruence.
Qed.

(** With the default configuration both periods are 9 and both series read
    [SC_LAST]; on ten rising bars the slow series is the mean of the last
    nine samples, and the fast series the mean of the last three. *)
Example default_configuration_windows :
  GetInt (Input rising 0) = 9%Z /\
  GetInt (Input rising 1) = 9%Z /\
  GetInputDataIndex (Input rising 2) = GetInputDataIndex (Input rising 3) /\
  elem (slow_series SMA rising) 9 = 6 /\
  elem (fast_series SMA rising) 9 = 9 /\
  fast_series SMA rising <> simple (BaseDataIn rising 3) (Subgraph rising 0) 9 9.
Proof. vm_compute. repeat split; discriminate. Qed.

Lemma fast_length_read_from_data_input_witness :
  SetDefaults rising = false /\
  fast_series SMA rising =
    simple (BaseDataIn rising SC_LAST) (Subgraph rising 0) 3 9 /\
  slow_series SMA rising =
    simple (BaseDataIn rising SC_LAST) (Subgraph rising 1) 9 9 /\
  fast_series SMA (with_Input 0 (INT_VALUE 3) rising) =
    fast_series SMA rising.
Proof.
  destruct (fast_length_read_from_data_input SMA rising eq_refl)
    as [Hf [Hs Hp]].
  split; [reflexivity|]. split; [exact Hf|]. split; [exact Hs|].
  exact (Hp (INT_VALUE 3)).
Defined.

Lemma opposing_position_sequence_witness :
  (crossover SMA short_cross_up = CROSS_FROM_BOTTOM /\
   emitted SMA short_cross_up =
     [CancelAllOrders; FlattenPosition; BuyEntry (build short_cross_up)]) /\
  (crossover SMA long_cross_down = CROSS_FROM_TOP /\
   emitted SMA long_cross_down =
     [CancelAllOrders; FlattenPosition; SellEntry (build long_cross_down)]).
Proof.
  split.
  - split; [vm_compute; reflexivity|].
    destruct (opposing_position_sequence SMA short_cross_up eq_refl eq_refl)
      as [Hup _].
    apply Hup; [vm_compute; reflexivity | cbn; lia].
  - split; [vm_compute; reflexivity|].
    destruct (opposing_position_sequence SMA long_cross_down eq_refl eq_refl)
      as [_ Hdown].
    apply Hdown; [vm_compute; reflexivity | cbn; lia].
Defined.

Lemma flatten_iff_opposing_witness :
  crossover SMA flat_cross_up = CROSS_FROM_BOTTOM /\
  ~ In FlattenPosition (emitted SMA flat_cross_up) /\
  emitted SMA flat_cross_up = [BuyEntry (build flat_cross_up)] /\
  crossover SMA long_cross_down = CROSS_FROM_TOP /\
  In FlattenPosition (emitted SMA long_cross_down).
Proof.
  destruct (flatten_iff_opposing SMA flat_cross_up eq_refl eq_refl)
    as [Hup _].
  destruct Hup as [_ [Hflat Hentry]]; [vm_compute; reflexivity|].
  destruct (flatten_iff_opposing SMA long_cross_down eq_refl eq_refl)
    as [_ [Hdown _]].
  destruct Hdown as [_ [Hlong _]]; [vm_compute; reflexivity|].
  split; [vm_compute; reflexivity|].
  split; [intros Hin; apply Hflat in Hin; cbn in Hin; lia|].
  split; [apply Hentry; cbn; lia|].
  split; [vm_compute; reflexivity|].
  apply Hlong. cbn. lia.
Defined.

Lemma no_cross_no_request_witness :
  crossover SMA level = NO_CROSS /\
  emitted SMA level = [] /\
  Orders (run SMA level) = Orders level.
Proof.
  split; [vm_compute; reflexivity|].
  apply (no_cross_no_request SMA level). vm_compute. reflexivity.
Defined.

Lemma only_at_close_one_entry_witness :
  BarHasClosedStatus short_cross_up_open <> BHCS_BAR_HAS_CLOSED /\
  emitted SMA short_cross_up_open = [] /\
  (length (List.filter is_entry (emitted SMA short_cross_up)) <= 1)%nat.
Proof.
  split; [discriminate|]. split.
  - apply (only_at_close_one_entry SMA short_cross_up_open). discriminate.
  - apply (only_at_close_one_entry SMA short_cross_up).
Defined.

Lemma entry_order_fields_witness :
  In (BuyEntry default_order) (emitted SMA short_cross_up) /\
  OrderQuantity default_order = 1%Z /\
  Stop1Offset default_order = 20 /\
  Target1Offset default_order = 20.
Proof.
  assert (He : emitted SMA short_cross_up =
                [CancelAllOrders; FlattenPosition; BuyEntry default_order])
    by (vm_compute; reflexivity).
  assert (Hin : In (BuyEntry default_order) (emitted SMA short_cross_up))
    by (rewrite He; right; right; left; reflexivity).
  split; [exact Hin|].
  destruct (entry_order_fields SMA short_cross_up default_order
              (or_introl Hin)) as [Hq [_ [_ [Hs [Ht _]]]]].
  split; [exact Hq|]. split; [exact Hs|exact Ht].
Defined.

Lemma attached_order_types_witness :
  In (SellEntry default_order) (emitted EMA long_cross_down) /\
  AttachedOrderTarget1Type default_order =
    SCT_ORDERTYPE_LIMIT /\
  AttachedOrderStop1Type default_order =
    SCT_ORDERTYPE_TRAILING_STOP.
Proof.
  assert (He : emitted EMA long_cross_down =
                [CancelAllOrders; FlattenPosition; SellEntry default_order])
    by (vm_compute; reflexivity).
  assert (Hin : In (SellEntry default_order) (emitted EMA long_cross_down))
    by (rewrite He; right; right; left; reflexivity).
  split; [exact Hin|].
  exact (attached_order_types EMA long_cross_down default_order
           (or_intror Hin)).
Defined.

(** On [long_cross_down] the simple and the exponential averages of the
    evaluated bar coincide, and the two studies emit the same requests. *)
Lemma variants_agree_witness :
  fast_series SMA long_cross_down = fast_series EMA long_cross_down /\
  slow_series SMA long_cross_down = slow_series EMA long_cross_down /\
  emitted SMA long_cross_down = emitted EMA long_cross_down /\
  emitted SMA long_cross_down <> [].
Proof.
  assert (Hf : fast_series SMA long_cross_down = fast_series EMA long_cross_down)
    by (vm_compute; reflexivity).
  assert (Hs : slow_series SMA long_cross_down = slow_series EMA long_cross_down)
    by (vm_compute; reflexivity).
  split; [exact Hf|]. split; [exact Hs|].
  split; [exact (variants_agree SMA EMA long_cross_down Hf Hs)|].
  vm_compute. discriminate.
Defined.

(** The same bar on two hosts whose logs and answers differ. *)
Lemma evaluation_deterministic_witness :
  Orders short_cross_up <> Orders short_cross_up_later /\
  OrderReply short_cross_up CancelAllOrders <>
    OrderReply short_cross_up_later CancelAllOrders /\
  emitted ZLEMA short_cross_up = emitted ZLEMA short_cross_up_later /\
  fast_series ZLEMA short_cross_up = fast_series ZLEMA short_cross_up_later /\
  slow_series ZLEMA short_cross_up = slow_series ZLEMA short_cross_up_later.
Proof.
  split; [discriminate|]. split; [discriminate|].
  apply (evaluation_deterministic ZLEMA short_cross_up short_cross_up_later);
    try reflexivity; intros k; reflexivity.
Defined.

Lemma classify_rule_witness :
  (forall a b : Q, Qltb a b = true -> Qltb b a = false) /\
  classify Qle_bool Qltb 1 2 3 2 = CROSS_FROM_BOTTOM /\
  classify Qle_bool Qltb 2 1 2 3 = CROSS_FROM_TOP /\
  classify Qle_bool Qltb 2 2 3 3 = NO_CROSS.
Proof.
  split; [exact Qltb_asym|].
  destruct (classify_rule Qle_bool Qltb Qltb_asym 1 2 3 2) as [Hb _].
  destruct (classify_rule Qle_bool Qltb Qltb_asym 2 1 2 3) as [_ [Ht _]].
  destruct (classify_rule Qle_bool Qltb Qltb_asym 2 2 3 3) as [_ [_ [_ Hn]]].
  split; [apply Hb; split; reflexivity|].
  split; [apply Ht; split; reflexivity|exact Hn].
Defined.

End Evaluations.

(** * Further properties of the study functions *)

Section Calls.
Context {SCFloat SCFloatArray SCSubgraph SCInput : Type}.
Context {H : ACSIL SCFloat SCFloatArray SCSubgraph SCInput}.

(** ** The defaults call *)

(** X1: a defaults call hands no request to the host and leaves the
    subgraphs, the base data and the inputs from 6 on as they were; it
    writes the periods 9 to inputs 0 and 1, [SC_LAST] to inputs 2 and 3,
    80 ticks to inputs 4 and 5, and the fixed settings. *)
Theorem defaults_call (v : Variant) (sc : SCStudyInterface) :
  SetDefaults sc = true ->
  emitted v sc = [] /\
  Subgraph (run v sc) = Subgraph sc /\
  BaseDataIn (run v sc) = BaseDataIn sc /\
  Settings (run v sc) = default_settings /\
  Input (run v sc) 0 = SetInt 9 (Input sc 0) /\
  Input (run v sc) 1 = SetInt 9 (Input sc 1) /\
  Input (run v sc) 2 = SetInputDataIndex SC_LAST (Input sc 2) /\
  Input (run v sc) 3 = SetInputDataIndex SC_LAST (Input sc 3) /\
  Input (run v sc) 4 = SetInt 80 (Input sc 4) /\
  Input (run v sc) 5 = SetInt 80 (Input sc 5) /\
  (forall k : nat, (6 <= k)%nat -> Input (run v sc) k = Input sc k).
Proof.
  intros Hd. split.
  - rewrite emitted_eq, Hd. reflexivity.
  - unfold run.
    destruct v; unfold_study; cbn; rewrite Hd; cbn; repeat split;
      intros k Hk; do 6 (destruct k as [|k]; [lia|]); reflexivity.
Qed.

(** ** What an evaluation leaves alone *)

(** X2: an evaluation changes nothing of [sc] but the two subgraphs 0 and
    1 and the log: inputs, settings, base data, tick size, bar index, bar
    status, position, the host's answers and every other subgraph are as
    before. *)
Theorem evaluation_frame (v : Variant) (sc : SCStudyInterface) :
  SetDefaults sc = false ->
  SetDefaults (run v sc) = false /\
  Index (run v sc) = Index sc /\
  Input (run v sc) = Input sc /\
  BaseDataIn (run v sc) = BaseDataIn sc /\
  TickSize (run v sc) = TickSize sc /\
  BarHasClosedStatus (run v sc) = BarHasClosedStatus sc /\
  TradePosition (run v sc) = TradePosition sc /\
  Settings (run v sc) = Settings sc /\
  OrderReply (run v sc) = OrderReply sc /\
  (forall k : nat, (2 <= k)%nat -> Subgraph (run v sc) k = Subgraph sc k).
Proof.
  intros Hd. rewrite (run_spec v sc Hd). cbn. rewrite Hd.
  repeat split.
  intros k Hk. do 2 (destruct k as [|k]; [lia|]). reflexivity.
Qed.

(** ** The shape of what a call emits *)

(** X3: a call emits one of five sequences: nothing, the buy entry alone,
    cancel-flatten-buy, the sell entry alone, or cancel-flatten-sell, the
    entry carrying the order built from the inputs.  So a cancel is always
    followed at once by a flatten, a flatten by an entry, and nothing
    follows the entry. *)
Theorem emitted_shapes (v : Variant) (sc : SCStudyInterface) :
  emitted v sc = [] \/
  emitted v sc = [BuyEntry (build sc)] \/
  emitted v sc = [CancelAllOrders; FlattenPosition; BuyEntry (build sc)] \/
  emitted v sc = [SellEntry (build sc)] \/
  emitted v sc = [CancelAllOrders; FlattenPosition; SellEntry (build sc)].
Proof.
  rewrite emitted_eq. destruct (SetDefaults sc); [left; reflexivity|].
  apply decide_bar_cases.
Qed.

(** X4: a buy entry is emitted exactly in an evaluation of a closed bar
    whose classification is CrossFromBelow, a sell entry exactly when it is
    CrossFromAbove, whatever the position; the order is the one built from
    the inputs. *)
Theorem entry_iff_crossing (v : Variant) (sc : SCStudyInterface) (o : s_SCNewOrder) :
  (In (BuyEntry o) (emitted v sc) <->
   SetDefaults sc = false /\ BarHasClosedStatus sc = BHCS_BAR_HAS_CLOSED /\
   crossover v sc = CROSS_FROM_BOTTOM /\ o = build sc) /\
  (In (SellEntry o) (emitted v sc) <->
   SetDefaults sc = false /\ BarHasClosedStatus sc = BHCS_BAR_HAS_CLOSED /\
   crossover v sc = CROSS_FROM_TOP /\ o = build sc).
Proof.
  rewrite emitted_eq.
  destruct (SetDefaults sc); [cbn; split; split; intuition congruence|].
  destruct (BarHasClosedStatus sc);
    try (cbn; split; split; intuition congruence).
  destruct (crossover v sc); cbn [decide_bar transition_table].
  - destruct (PositionQuantity (TradePosition sc) >? 0); cbn;
      split; split; intuition congruence.
  - destruct (PositionQuantity (TradePosition sc) <? 0); cbn;
      split; split; intuition congruence.
  - cbn; split; split; intuition congruence.
Qed.

(** ** Calls in sequence *)

(** X5: the study keeps no record of having traded.  When a second call
    on the same [sc] finds the two series as the first call left them, it
    emits the same requests again, so the log holds them twice. *)
Theorem repeated_call_repeats (v : Variant) (sc : SCStudyInterface) :
  SetDefaults sc = false ->
  fast_series v (run v sc) = fast_series v sc ->
  slow_series v (run v sc) = slow_series v sc ->
  emitted v (run v sc) = emitted v sc /\
  Orders (run v (run v sc)) = Orders sc ++ emitted v sc ++ emitted v sc.
Proof.
  intros Hd Hf Hs.
  destruct (evaluation_frame v sc Hd)
    as [Hd' [Hi [Hin [_ [Ht [Hst [Hp _]]]]]]].
  assert (He : emitted v (run v sc) = emitted v sc).
  { rewrite !emitted_eq. unfold crossover, build.
    rewrite Hd', Hd, Hf, Hs, Hi, Hin, Ht, Hst, Hp. reflexivity. }
  split; [exact He|].
  rewrite (run_log v (run v sc)), (run_log v sc), He, <- app_assoc.
  reflexivity.
Qed.


(** ** The configuration the defaults call leaves *)

(** X7: on a host whose getters read back what the setters wrote, an
    evaluation with the inputs a defaults call left builds the order of 80
    stop ticks and 80 target ticks, and smooths the [SC_LAST] array into
    both series, the slow one with length 9. *)
Theorem evaluation_after_defaults (v : Variant) (sc0 sc : SCStudyInterface) :
  (forall (x : Z) (i : SCInput), GetInt (SetInt x i) = x) ->
  (forall (x : Z) (i : SCInput), GetInputDataIndex (SetInputDataIndex x i) = x) ->
  SetDefaults sc0 = true ->
  SetDefaults sc = false ->
  Input sc = Input (run v sc0) ->
  build sc = OrderIntent 80 80 (TickSize sc) /\
  slow_series v sc =
    MovAvg v (BaseDataIn sc SC_LAST) (Subgraph sc 1) 9 (Index sc) /\
  (exists Length : Z,
     fast_series v sc =
       MovAvg v (BaseDataIn sc SC_LAST) (Subgraph sc 0) Length (Index sc)).
Proof.
  intros Hget Hidx Hd0 Hd Hin.
  destruct (defaults_call v sc0 Hd0)
    as [_ [_ [_ [_ [_ [H1 [H2 [H3 [H4 [H5 _]]]]]]]]]].
  destruct (series_spec v sc Hd) as [Hf Hs].
  unfold build. rewrite Hf, Hs, !Hin, H1, H2, H3, H4, H5, !Hget, !Hidx.
  split; [reflexivity|]. split; [reflexivity|].
  eexists. reflexivity.
Qed.

(** X8: on a host whose crossover test reports no crossing of a series
    with itself, an evaluation in which both smoothing calls get the same
    array, the same length and the same earlier output emits nothing. *)
Theorem alike_series_no_trade (v : Variant) (sc : SCStudyInterface) :
  (forall (g : SCSubgraph) (i : nat), CrossOver g g i = NO_CROSS) ->
  SetDefaults sc = false ->
  GetInputDataIndex (Input sc 2) = GetInputDataIndex (Input sc 3) ->
  GetInt (Input sc 2) = GetInt (Input sc 1) ->
  Subgraph sc 0 = Subgraph sc 1 ->
  fast_series v sc = slow_series v sc /\ emitted v sc = [].
Proof.
  intros Hx Hd Hidx Hlen Hsub.
  destruct (series_spec v sc Hd) as [Hf Hs].
  assert (Heq : fast_series v sc = slow_series v sc).
  { rewrite Hf, Hs, Hidx, Hlen, Hsub. reflexivity. }
  split; [exact Heq|].
  rewrite emitted_eq, Hd. unfold crossover. rewrite Heq, Hx.
  destruct (BarHasClosedStatus sc); reflexivity.
Qed.

End Calls.

(** * The further properties on concrete evaluations *)

Section CallEvaluations.
Import RefHost Scenario.
Local Open Scope Q_scope.
#[local] Existing Instance host.

Lemma Qltb_irrefl (a : Q) : Qltb a a = false.
Proof.
  unfold Qltb. apply negb_false_iff. apply Qle_bool_iff. apply Qle_refl.
Qed.

Lemma cross_over_same (g : list Q) (i : nat) : cross_over g g i = NO_CROSS.
Proof.
  destruct i as [|j]; [reflexivity|].
  unfold cross_over, classify. rewrite Qltb_irrefl, !andb_false_r.
  reflexivity.
Qed.

Lemma defaults_call_witness :
  SetDefaults blank = true /\
  emitted SMA blank = [] /\
  Settings (run SMA blank) = default_settings /\
  map (fun k => Input (run SMA blank) k) [0; 1; 2; 3; 4; 5; 6]%nat =
    [INT_VALUE 9; INT_VALUE 9; OHLC_VALUE 3; OHLC_VALUE 3;
     INT_VALUE 80; INT_VALUE 80; INT_VALUE 0].
Proof.
  destruct (defaults_call SMA blank eq_refl)
    as [He [_ [_ [Hs [H0 [H1 [H2 [H3 [H4 [H5 H6]]]]]]]]]].
  split; [reflexivity|]. split; [exact He|]. split; [exact Hs|].
  cbn [map]. rewrite H0, H1, H2, H3, H4, H5, (H6 6%nat (le_n 6)).
  reflexivity.
Defined.

Lemma evaluation_frame_witness :
  SetDefaults short_cross_up = false /\
  Input (run SMA short_cross_up) = Input short_cross_up /\
  TradePosition (run SMA short_cross_up) = TradePosition short_cross_up /\
  Subgraph (run SMA short_cross_up) 2 = Subgraph short_cross_up 2 /\
  Subgraph (run SMA short_cross_up) 0 <> Subgraph short_cross_up 0.
Proof.
  destruct (evaluation_frame SMA short_cross_up eq_refl)
    as [_ [_ [Hin [_ [_ [_ [Hp [_ [_ Hsub]]]]]]]]].
  split; [reflexivity|]. split; [exact Hin|]. split; [exact Hp|].
  split; [exact (Hsub 2%nat (le_n 2))|].
  vm_compute. discriminate.
Defined.

Lemma entry_iff_crossing_witness :
  crossover SMA short_cross_up = CROSS_FROM_BOTTOM /\
  In (BuyEntry (build short_cross_up)) (emitted SMA short_cross_up) /\
  ~ In (SellEntry (build short_cross_up)) (emitted SMA short_cross_up).
Proof.
  assert (Hx : crossover SMA short_cross_up = CROSS_FROM_BOTTOM)
    by (vm_compute; reflexivity).
  destruct (entry_iff_crossing SMA short_cross_up (build short_cross_up))
    as [[_ Hbuy] [Hsell _]].
  split; [exact Hx|]. split.
  - apply Hbuy. split; [reflexivity|]. split; [reflexivity|].
    split; [exact Hx|reflexivity].
  - intros Hin. apply Hsell in Hin. destruct Hin as [_ [_ [Hc _]]].
    rewrite Hx in Hc. discriminate.
Defined.

Lemma repeated_call_repeats_witness :
  fast_series SMA (run SMA short_cross_up) = fast_series SMA short_cross_up /\
  slow_series SMA (run SMA short_cross_up) = slow_series SMA short_cross_up /\
  emitted SMA (run SMA short_cross_up) = emitted SMA short_cross_up /\
  length (Orders (run SMA (run SMA short_cross_up))) = 6%nat.
Proof.
  assert (Hf : fast_series SMA (run SMA short_cross_up) =
               fast_series SMA short_cross_up) by (vm_compute; reflexivity).
  assert (Hs : slow_series SMA (run SMA short_cross_up) =
               slow_series SMA short_cross_up) by (vm_compute; reflexivity).
  destruct (repeated_call_repeats SMA short_cross_up eq_refl Hf Hs)
    as [He Hlog].
  split; [exact Hf|]. split; [exact Hs|]. split; [exact He|].
  rewrite Hlog. vm_compute. reflexivity.
Defined.

Lemma evaluation_after_defaults_witness :
  SetDefaults blank = true /\
  SetDefaults rising = false /\
  Input rising = Input (run SMA blank) /\
  build rising = OrderIntent 80 80 (1 # 4) /\
  slow_series SMA rising =
    simple (BaseDataIn rising 3) (Subgraph rising 1) 9 9.
Proof.
  assert (Hget : forall (x : Z) (i : InputValue), GetInt (SetInt x i) = x)
    by (intros x i; reflexivity).
  assert (Hidx : forall (x : Z) (i : InputValue),
             GetInputDataIndex (SetInputDataIndex x i) = x)
    by (intros x i; reflexivity).
  destruct (evaluation_after_defaults SMA blank rising Hget Hidx
              eq_refl eq_refl eq_refl) as [Hb [Hs _]].
  split; [reflexivity|]. split; [reflexivity|]. split; [reflexivity|].
  split; [exact Hb|exact Hs].
Defined.

Lemma alike_series_no_trade_witness :
  SetDefaults level_alike = false /\
  GetInt (Input level_alike 2) = GetInt (Input level_alike 1) /\
  Subgraph level_alike 0 = Subgraph level_alike 1 /\
  fast_series SMA level_alike = slow_series SMA level_alike /\
  emitted SMA level_alike = [].
Proof.
  split; [reflexivity|]. split; [reflexivity|]. split; [reflexivity|].
  apply (alike_series_no_trade (H := host) SMA level_alike cross_over_same);
    reflexivity.
Defined.

End CallEvaluations.
